(** * log_hood: the Linux platform-channel plugin

    A shallow embedding of [linux/log_hood_plugin.cc]: the method-call
    handler [log_hood_plugin_handle_method_call], the version query
    [get_platform_version] and the registration entry point
    [log_hood_plugin_register_with_registrar], together with the small part
    of libc, GLib and the Flutter Linux embedder that these functions call.

    The Windows target ships only the declaration of its handler
    ([windows/log_hood_plugin.h]) and the C entry point that forwards to
    [RegisterWithRegistrar]; there is no behaviour to embed there. *)

From stdpp Require Import base decidable option list strings gmap fin_maps.
From Stdlib Require Import ZArith Lia.
From Stdlib Require Import Ascii.
From Stdlib Require String.

Set Warnings "-register-all".

Local Open Scope Z_scope.

(** ** C strings *)

Module CString.

(** A [char*] is modelled by the bytes found at the pointer.  The end of
    the Rocq string stands for the terminating NUL of the buffer, and a
    NUL byte inside it ends the C string early, exactly as every libc
    function reading the buffer would see it. *)
Definition NUL : ascii := Ascii.zero.

(** The value of a byte as [unsigned char]. *)
Definition uchar (c : ascii) : Z := Z.of_N (N_of_ascii c).

(** The C string a buffer denotes: its bytes up to the first NUL. *)
Fixpoint c_str (p : string) : string :=
  match p with
  | EmptyString => EmptyString
  | String c rest =>
      if decide (c = NUL) then EmptyString else String c (c_str rest)
  end.

(** [strcmp]: walk both buffers while the bytes agree; stop with [0] at a
    common NUL, otherwise with the difference of the first two bytes that
    disagree, compared as [unsigned char]. *)
Fixpoint strcmp (s1 s2 : string) : Z :=
  match s1, s2 with
  | EmptyString, EmptyString => 0
  | EmptyString, String c2 _ => uchar NUL - uchar c2
  | String c1 _, EmptyString => uchar c1 - uchar NUL
  | String c1 r1, String c2 r2 =>
      if decide (c1 = c2)
      then (if decide (c1 = NUL) then 0 else strcmp r1 r2)
      else uchar c1 - uchar c2
  end.

(** A buffer of [n] NUL bytes: what [= {}] leaves in a [char[n]]. *)
Fixpoint zeroed (n : nat) : string :=
  match n with
  | O => EmptyString
  | S k => String NUL (zeroed k)
  end.

(** [g_strdup_printf], for the conversions the plugin uses: [%s] prints the
    C string found at the next argument and [%%] prints a percent sign;
    every other byte of the format is copied.  A [%s] without an argument
    left (undefined in C) prints nothing. *)
Fixpoint g_strdup_printf (format : string) (args : list string) : string :=
  match format with
  | EmptyString => EmptyString
  | String c rest =>
      if decide (c = NUL) then EmptyString
      else if decide (c = "%"%char) then
        match rest with
        | String d rest' =>
            if decide (d = "s"%char) then
              match args with
              | a :: args' => c_str a +:+ g_strdup_printf rest' args'
              | [] => g_strdup_printf rest' []
              end
            else if decide (d = "%"%char) then
              String "%" (g_strdup_printf rest' args)
            else String c (g_strdup_printf rest args)
        | EmptyString => String c EmptyString
        end
      else String c (g_strdup_printf rest args)
  end.

End CString.

Import CString.

(** ** [<sys/utsname.h>] *)

(** [struct utsname]: six [char[65]] fields. *)
Record utsname := {
  sysname : string;
  nodename : string;
  release : string;
  version : string;
  machine : string;
  domainname : string
}.

Definition _UTSNAME_LENGTH : nat := 65.

(** [struct utsname uname_data = {}]: every field zero-filled. *)
Definition utsname_zero : utsname :=
  {| sysname := zeroed _UTSNAME_LENGTH;
     nodename := zeroed _UTSNAME_LENGTH;
     release := zeroed _UTSNAME_LENGTH;
     version := zeroed _UTSNAME_LENGTH;
     machine := zeroed _UTSNAME_LENGTH;
     domainname := zeroed _UTSNAME_LENGTH |}.

(** ** Values and envelopes of the Flutter Linux embedder *)

(** [FlValue], the payload type of the standard codec.  The floating-point
    and typed-array variants are left out: the plugin builds only a string
    and never inspects the value it receives. *)
Inductive FlValue :=
| FL_VALUE_TYPE_NULL
| FL_VALUE_TYPE_BOOL (b : bool)
| FL_VALUE_TYPE_INT (i : Z)
| FL_VALUE_TYPE_STRING (s : string)
| FL_VALUE_TYPE_LIST (l : list FlValue)
| FL_VALUE_TYPE_MAP (m : list (FlValue * FlValue)).

(** [fl_value_new_string] copies the C string found at its argument. *)
Definition fl_value_new_string (value : string) : FlValue :=
  FL_VALUE_TYPE_STRING (c_str value).

(** [FlMethodResponse] and its three concrete classes. *)
Inductive FlMethodResponse :=
| FlMethodSuccessResponse (result : FlValue)
| FlMethodErrorResponse (code message : string) (details : FlValue)
| FlMethodNotImplementedResponse.

Definition fl_method_success_response_new (result : FlValue) : FlMethodResponse :=
  FlMethodSuccessResponse result.

Definition fl_method_not_implemented_response_new : FlMethodResponse :=
  FlMethodNotImplementedResponse.

(** The upcast macro [FL_METHOD_RESPONSE]. *)
Definition FL_METHOD_RESPONSE (r : FlMethodResponse) : FlMethodResponse := r.

(** Addresses of heap objects. *)
Abbreviation gpointer := positive (only parsing).

(** A channel is known to its messenger by name, and the messenger keeps
    one channel per name: a [FlMethodChannel*] is modelled by that pair. *)
Abbreviation FlMethodChannelRef := (positive * string)%type (only parsing).

(** [FlMethodCall]: the method name, the decoded arguments, the channel the
    call arrived on and the handle the reply is sent to. *)
Record FlMethodCall := {
  call_name : string;
  call_args : FlValue;
  call_channel : FlMethodChannelRef;
  call_response_handle : positive
}.

Definition fl_method_call_get_name (method_call : FlMethodCall) : string :=
  call_name method_call.

(** The method name a call carries, as a C string. *)
Definition method_name (method_call : FlMethodCall) : string :=
  c_str (fl_method_call_get_name method_call).

(** ** GObject instances *)

Inductive GType :=
| G_TYPE_OBJECT
| LOG_HOOD_TYPE_PLUGIN.

(** [struct _LogHoodPlugin] has the single member [parent_instance], so an
    instance is its [GObject] header: the class and the reference count. *)
Record GObject := {
  g_type : GType;
  ref_count : nat
}.

(** Function pointers, by the name of the function they point to. *)
Inductive GDestroyNotify :=
| G_object_unref.

Inductive FlMethodChannelMethodCallHandler :=
| Method_call_cb
| Foreign_handler (id : positive).

Inductive FlMethodCodec :=
| FlStandardMethodCodec
| FlJsonMethodCodec.

Definition fl_standard_method_codec_new : FlMethodCodec := FlStandardMethodCodec.

(** The upcast macro [FL_METHOD_CODEC]. *)
Definition FL_METHOD_CODEC (codec : FlMethodCodec) : FlMethodCodec := codec.

(** What the messenger holds for a channel. *)
Record FlMethodChannel := {
  channel_codec : FlMethodCodec;
  method_call_handler :
    option (FlMethodChannelMethodCallHandler * gpointer * option GDestroyNotify)
}.

Record FlPluginRegistrar := {
  registrar_messenger : gpointer
}.

Definition fl_plugin_registrar_get_messenger (registrar : FlPluginRegistrar) : gpointer :=
  registrar_messenger registrar.

(** ** The world the plugin runs in *)

(** - [kernel]: what the kernel answers to [uname]; [None] when the system
      call fails;
    - [objects]: the live GObject instances;
    - [channels]: the channels registered with each messenger, by name;
    - [responses]: every call of [fl_method_call_respond] so far, oldest
      first. *)
Record World := {
  kernel : option utsname;
  objects : gmap positive GObject;
  channels : gmap (positive * string) FlMethodChannel;
  responses : list (FlMethodCall * FlMethodResponse)
}.

Definition set_objects (f : gmap positive GObject → gmap positive GObject)
    (w : World) : World :=
  {| kernel := kernel w; objects := f (objects w);
     channels := channels w; responses := responses w |}.

Definition set_channels
    (f : gmap (positive * string) FlMethodChannel → gmap (positive * string) FlMethodChannel)
    (w : World) : World :=
  {| kernel := kernel w; objects := objects w;
     channels := f (channels w); responses := responses w |}.

Definition set_responses
    (f : list (FlMethodCall * FlMethodResponse) → list (FlMethodCall * FlMethodResponse))
    (w : World) : World :=
  {| kernel := kernel w; objects := objects w;
     channels := channels w; responses := f (responses w) |}.

(** Code that reads and updates the world. *)
Definition M (A : Type) : Type := World → A * World.

#[global] Instance M_ret : MRet M := λ A (a : A) w, (a, w).
#[global] Instance M_bind : MBind M :=
  λ A B (f : A → M B) (m : M A) w, let (a, w') := m w in f a w'.

Definition exec {A} (m : M A) (w : World) : World := (m w).2.
Definition eval {A} (m : M A) (w : World) : A := (m w).1.

Definition gets {A} (f : World → A) : M A := λ w, (f w, w).
Definition modify (f : World → World) : M unit := λ w, (tt, f w).

Arguments exec : simpl never.
Arguments eval : simpl never.

(** ** libc and GLib calls *)

(** [uname(buf)]: on success the kernel's answer is stored in the buffer
    and [0] is returned; on failure the buffer is left as it was and [-1]
    is returned. *)
Definition uname (buf : utsname) : M (Z * utsname) :=
  answer ← gets kernel;
  match answer with
  | Some u => mret (0, u)
  | None => mret (-1, buf)
  end.

(** The plugin's instance initialiser and its [dispose], which only chains
    to the parent class; a bare [GObject] has nothing to release. *)
Definition log_hood_plugin_init (self : gpointer) : M unit := mret tt.

Definition log_hood_plugin_dispose (object : gpointer) : M unit := mret tt.

Definition instance_init (type : GType) (object : gpointer) : M unit :=
  match type with
  | LOG_HOOD_TYPE_PLUGIN => log_hood_plugin_init object
  | G_TYPE_OBJECT => mret tt
  end.

Definition dispose (type : GType) (object : gpointer) : M unit :=
  match type with
  | LOG_HOOD_TYPE_PLUGIN => log_hood_plugin_dispose object
  | G_TYPE_OBJECT => mret tt
  end.

(** [g_object_new]: a fresh instance holding one reference. *)
Definition g_object_new (type : GType) : M gpointer :=
  heap ← gets objects;
  let p := fresh (dom heap) in
  modify (set_objects <[p := {| g_type := type; ref_count := 1 |}]>) ;;
  instance_init type p ;;
  mret p.

Definition g_object_ref (object : gpointer) : M gpointer :=
  modify (set_objects
    (alter (λ o, {| g_type := g_type o; ref_count := S (ref_count o) |}) object)) ;;
  mret object.

(** [g_object_unref]: drop one reference; the last one disposes of the
    instance and frees it. *)
Definition g_object_unref (object : gpointer) : M unit :=
  heap ← gets objects;
  match heap !! object with
  | Some o =>
      match ref_count o with
      | S (S n) =>
          modify (set_objects
            <[object := {| g_type := g_type o; ref_count := S n |}]>)
      | _ =>
          dispose (g_type o) object ;;
          modify (set_objects (delete object))
      end
  | None => mret tt
  end.

Definition call_destroy_notify (notify : option GDestroyNotify) (data : gpointer) : M unit :=
  match notify with
  | Some G_object_unref => g_object_unref data
  | None => mret tt
  end.

(** ** Calls into the embedder

    The Flutter Linux embedder is a library the plugin links against.  The
    functions below give the part of its behaviour the plugin relies on: a
    reply is sent for a call, and a messenger keeps, per channel name, the
    codec and the method-call handler of the channel. *)

(** [fl_method_call_respond]: one reply for [method_call] leaves the
    plugin.  The [GError**] argument is where a failure would be reported;
    the plugin passes [nullptr]. *)
Definition fl_method_call_respond (method_call : FlMethodCall)
    (response : FlMethodResponse) (error : option gpointer) : M bool :=
  modify (set_responses (λ l, l ++ [(method_call, response)])) ;;
  mret true.

(** Closing a channel releases the user data of its handler. *)
Definition close_channel (old : option FlMethodChannel) : M unit :=
  match old with
  | Some {| method_call_handler := Some (_, data, notify) |} =>
      call_destroy_notify notify data
  | _ => mret tt
  end.

(** [fl_method_channel_new]: the new channel takes over [name] on the
    messenger, with no handler yet; a channel that held the name before is
    closed. *)
Definition fl_method_channel_new (messenger : gpointer) (name : string)
    (codec : FlMethodCodec) : M FlMethodChannelRef :=
  let channel := (messenger, c_str name) in
  table ← gets channels;
  close_channel (table !! channel) ;;
  modify (set_channels
    <[channel := {| channel_codec := codec; method_call_handler := None |}]>) ;;
  mret channel.

(** [fl_method_channel_set_method_call_handler]: replaces the handler of the
    channel, releasing the user data of the previous one; on a channel that
    is closed the new user data is released at once. *)
Definition fl_method_channel_set_method_call_handler (channel : FlMethodChannelRef)
    (handler : FlMethodChannelMethodCallHandler) (user_data : gpointer)
    (destroy_notify : option GDestroyNotify) : M unit :=
  table ← gets channels;
  match table !! channel with
  | None => call_destroy_notify destroy_notify user_data
  | Some ch =>
      close_channel (Some ch) ;;
      modify (set_channels
        <[channel := {| channel_codec := channel_codec ch;
                        method_call_handler :=
                          Some (handler, user_data, destroy_notify) |}]>)
  end.

(** ** The plugin *)

(** [LOG_HOOD_PLUGIN(obj)]: the checked cast returns its argument. *)
Definition LOG_HOOD_PLUGIN (obj : gpointer) : gpointer := obj.

Definition log_hood_plugin_get_type : GType := LOG_HOOD_TYPE_PLUGIN.

Definition get_platform_version : M FlMethodResponse :=
  let uname_data := utsname_zero in
  '(_, uname_data) ← uname uname_data;
  let version := g_strdup_printf "Linux %s" [version uname_data] in
  let result := fl_value_new_string version in
  mret (FL_METHOD_RESPONSE (fl_method_success_response_new result)).

(** Called when a method call is received from Flutter. *)
Definition log_hood_plugin_handle_method_call (self : gpointer)
    (method_call : FlMethodCall) : M unit :=
  let method := fl_method_call_get_name method_call in
  response ←
    (if decide (strcmp method "getPlatformVersion" = 0)
     then get_platform_version
     else mret (FL_METHOD_RESPONSE fl_method_not_implemented_response_new));
  fl_method_call_respond method_call response None ;;
  mret tt.

Definition method_call_cb (channel : FlMethodChannelRef)
    (method_call : FlMethodCall) (user_data : gpointer) : M unit :=
  let plugin := LOG_HOOD_PLUGIN user_data in
  log_hood_plugin_handle_method_call plugin method_call.

(** The locals [codec] and [channel] are [g_autoptr]s: their references are
    returned when the function leaves.  The codec carries no state and the
    messenger keeps the channel it registered, so neither release changes
    the world. *)
Definition log_hood_plugin_register_with_registrar
    (registrar : FlPluginRegistrar) : M unit :=
  object ← g_object_new log_hood_plugin_get_type;
  let plugin := LOG_HOOD_PLUGIN object in
  let codec := fl_standard_method_codec_new in
  channel ← fl_method_channel_new (fl_plugin_registrar_get_messenger registrar)
              "log_hood" (FL_METHOD_CODEC codec);
  user_data ← g_object_ref plugin;
  fl_method_channel_set_method_call_handler channel Method_call_cb
    user_data (Some G_object_unref) ;;
  g_object_unref plugin.

(** ** The embedder's side of a channel *)

Definition fl_method_call_new (name : string) (args : FlValue)
    (channel : FlMethodChannelRef) (response_handle : positive) : FlMethodCall :=
  {| call_name := c_str name; call_args := args;
     call_channel := channel; call_response_handle := response_handle |}.

Section Embedder.

(** Handlers installed by other code of the process. *)
Variable foreign_handler :
  positive → FlMethodChannelRef → FlMethodCall → gpointer → M unit.

Definition invoke_handler (handler : FlMethodChannelMethodCallHandler) :
    FlMethodChannelRef → FlMethodCall → gpointer → M unit :=
  match handler with
  | Method_call_cb => method_call_cb
  | Foreign_handler id => foreign_handler id
  end.

(** A decoded method call arriving on [channel]: it goes to the handler
    the channel has at that moment, with the handler's user data; a
    channel without a handler leaves the call to the embedder. *)
Definition message_cb (channel : FlMethodChannelRef) (method : string)
    (args : FlValue) (response_handle : positive) : M unit :=
  table ← gets channels;
  match table !! channel with
  | Some {| method_call_handler := Some (handler, user_data, _) |} =>
      invoke_handler handler channel
        (fl_method_call_new method args channel response_handle) user_data
  | _ => mret tt
  end.

End Embedder.

(** ** Observations used in the statements *)

Definition PLATFORM_VERSION_METHOD : string := "getPlatformVersion".

(** The replies a piece of code hands to [fl_method_call_respond] when run
    from [w]: what it adds to the log. *)
Definition replies {A} (m : M A) (w : World) : list (FlMethodCall * FlMethodResponse) :=
  drop (length (responses w)) (responses (exec m w)).

(** The version string [uname] leaves in a zero-filled buffer. *)
Definition os_version (w : World) : string :=
  c_str (version (eval (uname utsname_zero) w).2).

(** The reply the contract of the channel asks for, read off the method
    name as a C string: the version for "getPlatformVersion", the
    not-implemented response for every other name. *)
Definition spec_response (call : FlMethodCall) (w : World) : FlMethodResponse :=
  if decide (method_name call = PLATFORM_VERSION_METHOD)
  then FlMethodSuccessResponse (FL_VALUE_TYPE_STRING ("Linux " +:+ os_version w))
  else FlMethodNotImplementedResponse.

(** Code that works on the GObject heap alone. *)
Definition heap_only {A} (m : M A) : Prop :=
  ∀ w, kernel (exec m w) = kernel w
       ∧ channels (exec m w) = channels w
       ∧ responses (exec m w) = responses w.

(** Handling a list of calls one after the other. *)
Fixpoint handle_all (calls : list (gpointer * FlMethodCall)) : M unit :=
  match calls with
  | [] => mret tt
  | (self, method_call) :: rest =>
      log_hood_plugin_handle_method_call self method_call ;; handle_all rest
  end.

Definition sample_uts : utsname :=
  {| sysname := "Linux"; nodename := "host"; release := "6.1.0";
     version := "#1 SMP PREEMPT_DYNAMIC"; machine := "x86_64";
     domainname := "(none)" |}.

Definition sample_world (k : option utsname) : World :=
  {| kernel := k; objects := ∅; channels := ∅; responses := [] |}.

Definition sample_call (name : string) (args : FlValue) : FlMethodCall :=
  {| call_name := name; call_args := args;
     call_channel := (1%positive, "log_hood"); call_response_handle := 1%positive |}.

Definition version_call : FlMethodCall :=
  sample_call "getPlatformVersion" FL_VALUE_TYPE_NULL.

(** A world whose kernel answers [uname], and one where the call fails. *)
Definition running : World := sample_world (Some sample_uts).
Definition failing : World := sample_world None.

(** The first world once the plugin is registered on messenger 7 and has
    answered one call. *)
Definition registered : World :=
  exec (log_hood_plugin_register_with_registrar {| registrar_messenger := 7 |} ;;
        log_hood_plugin_handle_method_call 1 (sample_call "other" FL_VALUE_TYPE_NULL))
       running.

(** Two names differ in a character when some position holds different
    characters, or a character in one name and none in the other. *)
Definition differ_in_a_character (a b : string) : Prop :=
  ∃ i : nat, String.get i a ≠ String.get i b.

(** ASCII case folding, as [tolower] in the C locale. *)
Definition tolower (c : ascii) : ascii :=
  let n := nat_of_ascii c in
  if ((65 <=? n) && (n <=? 90))%nat then ascii_of_nat (n + 32) else c.

Fixpoint lowercase (s : string) : string :=
  match s with
  | EmptyString => EmptyString
  | String c rest => String (tolower c) (lowercase rest)
  end.

(** ** Observations on the plugin's life cycle *)

(** The version string [get_platform_version] prints for an answer of the
    kernel: the [version] field up to its NUL, and nothing when [uname]
    failed, since the buffer is zero-filled beforehand and the return value
    of [uname] is not looked at. *)
Definition reported_version (answer : option utsname) : string :=
  match answer with
  | Some u => c_str (version u)
  | None => EmptyString
  end.

(** The channel registration writes to. *)
Definition log_hood_channel (registrar : FlPluginRegistrar) : positive * string :=
  (fl_plugin_registrar_get_messenger registrar, "log_hood").

(** The table entry of a channel served by the plugin instance [plugin]. *)
Definition plugin_entry (plugin : gpointer) : FlMethodChannel :=
  {| channel_codec := FlStandardMethodCodec;
     method_call_handler := Some (Method_call_cb, plugin, Some G_object_unref) |}.

(** A plugin instance holding [n] references. *)
Definition plugin_instance (n : nat) : GObject :=
  {| g_type := LOG_HOOD_TYPE_PLUGIN; ref_count := n |}.

(** Code that sends no reply and leaves the kernel's answer alone. *)
Definition quiet {A} (m : M A) : Prop :=
  ∀ w, kernel (exec m w) = kernel w ∧ responses (exec m w) = responses w.

(** The embedder closing the channel registered under a name, as it does
    when the name is taken over or the engine shuts down. *)
Definition close_channel_named (channel : positive * string) : M unit :=
  table ← gets channels;
  close_channel (table !! channel) ;;
  modify (set_channels (delete channel)).

(** Method calls arriving one after the other on a channel, each given by
    its method name, its arguments and its reply handle. *)
Fixpoint deliver_all
    (foreign_handler : positive → positive * string → FlMethodCall → gpointer → M unit)
    (channel : positive * string)
    (incoming : list (string * FlValue * positive)) : M unit :=
  match incoming with
  | [] => mret tt
  | (method, args, response_handle) :: rest =>
      message_cb foreign_handler channel method args response_handle ;;
      deliver_all foreign_handler channel rest
  end.

(** The call the embedder builds for an incoming message. *)
Definition incoming_call (channel : positive * string)
    (message : string * FlValue * positive) : FlMethodCall :=
  fl_method_call_new message.1.1 message.1.2 channel message.2.

(** * Running monadic code *)

Section MonadFacts.

Context {A B : Type}.
Implicit Types (w : World).

Lemma run_eq (m : M A) w : m w = (eval m w, exec m w).
Proof. unfold eval, exec. by destruct (m w). Qed.

Lemma bind_run (m : M A) (f : A → M B) w :
  (m ≫= f) w = f (eval m w) (exec m w).
Proof. unfold mbind, M_bind, eval, exec. by destruct (m w). Qed.

Lemma exec_bind (m : M A) (f : A → M B) w :
  exec (m ≫= f) w = exec (f (eval m w)) (exec m w).
Proof. unfold exec at 1. by rewrite bind_run. Qed.

Lemma eval_bind (m : M A) (f : A → M B) w :
  eval (m ≫= f) w = eval (f (eval m w)) (exec m w).
Proof. unfold eval at 1. by rewrite bind_run. Qed.

Lemma exec_mret (a : A) w : exec (mret a) w = w.
Proof. done. Qed.

Lemma eval_mret (a : A) w : eval (mret a) w = a.
Proof. done. Qed.

Lemma exec_gets (f : World → A) w : exec (gets f) w = w.
Proof. done. Qed.

Lemma eval_gets (f : World → A) w : eval (gets f) w = f w.
Proof. done. Qed.

Lemma exec_modify (f : World → World) w : exec (modify f) w = f w.
Proof. done. Qed.

End MonadFacts.

Create Rewrite HintDb run.
#[global] Hint Rewrite @exec_bind @eval_bind @exec_mret @eval_mret
  @exec_gets @eval_gets exec_modify : run.

Ltac run := autorewrite with run.

(** * Facts about the C string functions *)

Section CStringFacts.

Lemma uchar_inj c1 c2 : uchar c1 = uchar c2 → c1 = c2.
Proof.
  unfold uchar. intros H%N2Z.inj.
  rewrite <- (ascii_N_embedding c1), <- (ascii_N_embedding c2).
  by rewrite H.
Qed.

Lemma uchar_NUL : uchar NUL = 0.
Proof. reflexivity. Qed.

Lemma uchar_diff_0 c1 c2 : uchar c1 - uchar c2 = 0 → c1 = c2.
Proof. intros H. apply uchar_inj. lia. Qed.

Lemma c_str_cons c rest :
  c ≠ NUL → c_str (String c rest) = String c (c_str rest).
Proof. intros H. simpl. by destruct (decide (c = NUL)). Qed.

Lemma c_str_NUL rest : c_str (String NUL rest) = EmptyString.
Proof. reflexivity. Qed.

Lemma c_str_idemp p : c_str (c_str p) = c_str p.
Proof.
  induction p as [|c rest IH]; [done|]. simpl.
  destruct (decide (c = NUL)) as [->|Hc]; [done|].
  rewrite c_str_cons by done. by rewrite IH.
Qed.

Lemma c_str_zeroed n : c_str (zeroed n) = EmptyString.
Proof. by destruct n. Qed.

Lemma append_empty_r (s : string) : s +:+ EmptyString = s.
Proof.
  induction s as [|c s IH]; [done|].
  change (String c s +:+ EmptyString) with (String c (s +:+ EmptyString)).
  by rewrite IH.
Qed.

(** [strcmp] answers [0] exactly when the two buffers hold the same C
    string. *)
Lemma strcmp_0_iff s1 s2 : strcmp s1 s2 = 0 ↔ c_str s1 = c_str s2.
Proof.
  revert s2. induction s1 as [|c1 r1 IH]; intros [|c2 r2]; simpl.
  - done.
  - destruct (decide (c2 = NUL)) as [->|Hc]; [done|].
    split; [|done]. rewrite uchar_NUL. intros H. destruct Hc.
    apply uchar_inj. rewrite uchar_NUL. lia.
  - destruct (decide (c1 = NUL)) as [->|Hc]; [done|].
    split; [|done]. rewrite uchar_NUL. intros H. destruct Hc.
    apply uchar_inj. rewrite uchar_NUL. lia.
  - destruct (decide (c1 = c2)) as [->|Hne].
    + destruct (decide (c2 = NUL)) as [->|Hc]; [done|].
      rewrite IH. split; [by intros ->|]. by intros [= ->].
    + split; [by intros ?%uchar_diff_0|].
      destruct (decide (c1 = NUL)) as [->|H1], (decide (c2 = NUL)) as [->|H2];
        try done.
      by intros [= -> _].
Qed.

Lemma strcmp_refl s : strcmp s s = 0.
Proof. by apply strcmp_0_iff. Qed.

(** Swapping the operands of [strcmp] flips the sign of its answer. *)
Lemma strcmp_antisym s1 s2 : strcmp s2 s1 = - strcmp s1 s2.
Proof.
  revert s2. induction s1 as [|c1 r1 IH]; intros [|c2 r2]; simpl;
    rewrite ?uchar_NUL; try lia.
  destruct (decide (c1 = c2)) as [->|Hne].
  - rewrite decide_True by done.
    destruct (decide (c2 = NUL)); [done|]. apply IH.
  - rewrite decide_False by done. lia.
Qed.

(** The format of [get_platform_version]. *)
Lemma printf_Linux (v : string) :
  g_strdup_printf "Linux %s" [v] = "Linux " +:+ c_str v.
Proof.
  change (g_strdup_printf "Linux %s" [v])
    with ("Linux " +:+ c_str v +:+ EmptyString).
  by rewrite append_empty_r.
Qed.

Lemma c_str_Linux (v : string) :
  c_str ("Linux " +:+ c_str v) = "Linux " +:+ c_str v.
Proof.
  change (c_str ("Linux " +:+ c_str v))
    with ("Linux " +:+ c_str (c_str v)).
  by rewrite c_str_idemp.
Qed.

Lemma length_append (s t : string) :
  String.length (s +:+ t) = (String.length s + String.length t)%nat.
Proof.
  induction s as [|c s IH]; [done|].
  change (String c s +:+ t) with (String c (s +:+ t)). simpl. by rewrite IH.
Qed.

(** Padding a string on either side changes it. *)
Lemma padded_ne (pre post s : string) :
  pre ≠ EmptyString ∨ post ≠ EmptyString → pre +:+ s +:+ post ≠ s.
Proof.
  intros Hpad Heq. apply (f_equal String.length) in Heq.
  rewrite !length_append in Heq.
  destruct pre, post; simpl in Heq; try lia. by destruct Hpad.
Qed.

(** Two strings differ exactly when they differ in a character. *)
Lemma differ_in_a_character_iff (a b : string) :
  differ_in_a_character a b ↔ a ≠ b.
Proof.
  split.
  - intros [i Hi] ->. by destruct Hi.
  - revert b. induction a as [|c a IH]; intros [|d b] Hne.
    + done.
    + by exists 0%nat.
    + by exists 0%nat.
    + destruct (decide (c = d)) as [->|Hcd].
      * destruct (IH b) as [i Hi]; [congruence|]. by exists (S i).
      * exists 0%nat. simpl. congruence.
Qed.

End CStringFacts.

(** * Running the handler *)

Section HandlerFacts.

Implicit Types (self : gpointer) (call : FlMethodCall) (w : World).

Lemma exec_uname buf w : exec (uname buf) w = w.
Proof. unfold uname. run. by destruct (kernel w). Qed.

Lemma eval_uname buf w :
  eval (uname buf) w
  = match kernel w with Some u => (0, u) | None => (-1, buf) end.
Proof. unfold uname. run. by destruct (kernel w). Qed.

Lemma os_version_success w u :
  kernel w = Some u → os_version w = c_str (version u).
Proof. unfold os_version. rewrite eval_uname. by intros ->. Qed.

Lemma os_version_failure w : kernel w = None → os_version w = EmptyString.
Proof. unfold os_version. rewrite eval_uname. by intros ->. Qed.

Lemma get_platform_version_run w :
  get_platform_version w
  = (FlMethodSuccessResponse (FL_VALUE_TYPE_STRING ("Linux " +:+ os_version w)), w).
Proof.
  rewrite run_eq. unfold get_platform_version, os_version. run.
  rewrite exec_uname.
  destruct (eval (uname utsname_zero) w) as [rc uname_data]. run.
  unfold FL_METHOD_RESPONSE, fl_method_success_response_new, fl_value_new_string.
  by rewrite printf_Linux, c_str_Linux.
Qed.

Lemma strcmp_method call :
  strcmp (fl_method_call_get_name call) "getPlatformVersion" = 0
  ↔ method_name call = PLATFORM_VERSION_METHOD.
Proof. unfold method_name. by rewrite strcmp_0_iff. Qed.

(** The handler, run from any world: it returns, and all it does to the
    world is one call of [fl_method_call_respond]. *)
Lemma handle_method_call_run self call w :
  log_hood_plugin_handle_method_call self call w
  = (tt, set_responses (λ l, l ++ [(call, spec_response call w)]) w).
Proof.
  rewrite run_eq. unfold log_hood_plugin_handle_method_call, spec_response.
  unfold fl_method_call_respond. run.
  destruct (decide (strcmp _ _ = 0)) as [H|H]; rewrite strcmp_method in H.
  - rewrite decide_True by done.
    unfold eval, exec. by rewrite get_platform_version_run.
  - by rewrite decide_False by done.
Qed.

Lemma handle_method_call_responses self call w :
  responses (exec (log_hood_plugin_handle_method_call self call) w)
  = responses w ++ [(call, spec_response call w)].
Proof. unfold exec. by rewrite handle_method_call_run. Qed.

Lemma handle_method_call_replies self call w :
  replies (log_hood_plugin_handle_method_call self call) w
  = [(call, spec_response call w)].
Proof.
  unfold replies. rewrite handle_method_call_responses.
  by rewrite drop_app_length.
Qed.

(** The handler touches nothing but the log of replies. *)
Lemma handle_method_call_frame self call w :
  let w' := exec (log_hood_plugin_handle_method_call self call) w in
  kernel w' = kernel w ∧ objects w' = objects w ∧ channels w' = channels w.
Proof. unfold exec. by rewrite handle_method_call_run. Qed.

Lemma handle_all_kernel calls w : kernel (exec (handle_all calls) w) = kernel w.
Proof.
  revert w. induction calls as [|[self call] rest IH]; intros w; [done|].
  unfold exec in *. simpl. unfold mbind, M_bind.
  rewrite handle_method_call_run. cbv beta iota.
  etrans; [apply IH|done].
Qed.

Lemma os_version_kernel w1 w2 : kernel w1 = kernel w2 → os_version w1 = os_version w2.
Proof. unfold os_version. rewrite !eval_uname. by intros ->. Qed.

Lemma uname_kernel w1 w2 :
  eval (uname utsname_zero) w1 = eval (uname utsname_zero) w2 →
  os_version w1 = os_version w2.
Proof. unfold os_version. by intros ->. Qed.

End HandlerFacts.

(** * The dispatcher *)

Section Dispatcher.

Implicit Types (self : gpointer) (call : FlMethodCall) (w : World).

(** C1.  A call whose method name is exactly "getPlatformVersion" is
    answered with a success response holding one string value: the OS
    name "Linux", a space, and the version string the [uname] query left
    in the buffer. *)
Theorem get_platform_version_reply self call w :
  method_name call = "getPlatformVersion" →
  responses (exec (log_hood_plugin_handle_method_call self call) w)
  = responses w
    ++ [(call, FlMethodSuccessResponse
                 (FL_VALUE_TYPE_STRING ("Linux" +:+ " " +:+ os_version w)))].
Proof.
  intros Hname. rewrite handle_method_call_responses.
  unfold spec_response. by rewrite decide_True.
Qed.

(** C2.  A call with any other method name is answered with the
    not-implemented response, which is no success response. *)
Theorem other_method_not_implemented self call w :
  method_name call ≠ "getPlatformVersion" →
  responses (exec (log_hood_plugin_handle_method_call self call) w)
  = responses w ++ [(call, FlMethodNotImplementedResponse)].
Proof.
  intros Hname. rewrite handle_method_call_responses.
  unfold spec_response. by rewrite decide_False.
Qed.

(** C3.  Whatever the [uname] query produced (an answer with some version
    string, an answer with an empty one, or a failure), the reply to
    "getPlatformVersion" is a success response wrapping a string that is
    not empty. *)
Theorem get_platform_version_nonempty self call w :
  method_name call = "getPlatformVersion" →
  ∃ s : string,
    replies (log_hood_plugin_handle_method_call self call) w
    = [(call, FlMethodSuccessResponse (FL_VALUE_TYPE_STRING s))]
    ∧ s ≠ EmptyString
    ∧ (6 ≤ String.length s)%nat.
Proof.
  intros Hname. exists ("Linux " +:+ os_version w).
  rewrite handle_method_call_replies. unfold spec_response.
  rewrite decide_True by done.
  split; [done|]. split; [done|].
  change (String.length ("Linux " +:+ os_version w))
    with (6 + String.length (os_version w))%nat.
  lia.
Qed.

(** C4.  The reply is the not-implemented response exactly when the method
    name differs from "getPlatformVersion"; it is never an error response;
    and "getPlatformVersion" gets a success response also when [uname]
    fails. *)
Theorem single_error_path self call w :
  ∃ r : FlMethodResponse,
    replies (log_hood_plugin_handle_method_call self call) w = [(call, r)]
    ∧ (r = FlMethodNotImplementedResponse
       ↔ method_name call ≠ "getPlatformVersion")
    ∧ (∀ code message details, r ≠ FlMethodErrorResponse code message details)
    ∧ (method_name call = "getPlatformVersion" →
       ∃ v, r = FlMethodSuccessResponse v)
    ∧ (method_name call = "getPlatformVersion" → kernel w = None →
       r = FlMethodSuccessResponse (FL_VALUE_TYPE_STRING "Linux ")).
Proof.
  exists (spec_response call w). rewrite handle_method_call_replies.
  split; [done|]. unfold spec_response.
  destruct (decide (method_name call = PLATFORM_VERSION_METHOD)) as [H|H].
  - repeat split; try done.
    + by eauto.
    + intros _ Hk. by rewrite (os_version_failure _ Hk).
  - repeat split; try done.
Qed.

(** C5.  Every invocation of the handler returns, and by then it has
    called [fl_method_call_respond] exactly once, for the call it was
    given; nothing else in the world has changed. *)
Theorem responds_exactly_once self call w :
  ∃ (r : FlMethodResponse) (w' : World),
    log_hood_plugin_handle_method_call self call w = (tt, w')
    ∧ responses w' = responses w ++ [(call, r)]
    ∧ replies (log_hood_plugin_handle_method_call self call) w = [(call, r)]
    ∧ length (replies (log_hood_plugin_handle_method_call self call) w) = 1%nat
    ∧ kernel w' = kernel w ∧ objects w' = objects w ∧ channels w' = channels w.
Proof.
  eexists _, _. split; [apply handle_method_call_run|].
  rewrite handle_method_call_replies. done.
Qed.

(** C6.  Two invocations with the same method name, made in worlds where
    the [uname] query gives the same result, are answered alike, whatever
    calls were handled before either of them, by whichever plugin
    instance, and whatever else the two worlds hold. *)
Theorem stateless_and_deterministic
    (earlier1 earlier2 : list (gpointer * FlMethodCall))
    self1 self2 call1 call2 w1 w2 :
  method_name call1 = method_name call2 →
  eval (uname utsname_zero) w1 = eval (uname utsname_zero) w2 →
  (replies (log_hood_plugin_handle_method_call self1 call1)
     (exec (handle_all earlier1) w1)).*2
  = (replies (log_hood_plugin_handle_method_call self2 call2)
       (exec (handle_all earlier2) w2)).*2.
Proof.
  intros Hname Huname. rewrite !handle_method_call_replies. simpl.
  unfold spec_response. rewrite Hname.
  rewrite (os_version_kernel _ _ (handle_all_kernel earlier1 w1)).
  rewrite (os_version_kernel _ _ (handle_all_kernel earlier2 w2)).
  by rewrite (uname_kernel _ _ Huname).
Qed.

(** C7.  Matching is exact and case-sensitive.  A name that differs from
    "getPlatformVersion" in any character gets the not-implemented
    response; among the names that equal it up to letter case, every one
    but the exact name gets it; and so does every name that carries
    "getPlatformVersion" with something (white space, for one) before or
    after it. *)
Theorem method_name_match_is_exact self call w :
  (differ_in_a_character (method_name call) "getPlatformVersion" →
   replies (log_hood_plugin_handle_method_call self call) w
   = [(call, FlMethodNotImplementedResponse)])
  ∧ (lowercase (method_name call) = lowercase "getPlatformVersion" →
     (replies (log_hood_plugin_handle_method_call self call) w
      = [(call, FlMethodNotImplementedResponse)]
      ↔ method_name call ≠ "getPlatformVersion"))
  ∧ (∀ pre post : string,
       method_name call = pre +:+ "getPlatformVersion" +:+ post →
       pre ≠ EmptyString ∨ post ≠ EmptyString →
       replies (log_hood_plugin_handle_method_call self call) w
       = [(call, FlMethodNotImplementedResponse)]).
Proof.
  rewrite handle_method_call_replies. unfold spec_response.
  destruct (decide (method_name call = PLATFORM_VERSION_METHOD)) as [H|H].
  - split; [|split].
    + by intros ?%differ_in_a_character_iff.
    + intros _. split; [done|]. by intros [].
    + intros pre post Hname Hpad.
      destruct (padded_ne pre post "getPlatformVersion" Hpad).
      by rewrite <- Hname.
  - done.
Qed.

(** C8.  Two calls that carry the same method name are answered alike,
    whatever their argument payloads (and their reply handles) are: the
    reply is a function of the name and of the [uname] result alone. *)
Theorem reply_independent_of_arguments self call1 call2 w :
  fl_method_call_get_name call1 = fl_method_call_get_name call2 →
  (replies (log_hood_plugin_handle_method_call self call1) w).*2
  = (replies (log_hood_plugin_handle_method_call self call2) w).*2
  ∧ (exec (log_hood_plugin_handle_method_call self call1) w).(responses).*2
    = (exec (log_hood_plugin_handle_method_call self call2) w).(responses).*2.
Proof.
  intros Hname. rewrite !handle_method_call_replies, !handle_method_call_responses.
  rewrite !fmap_app. simpl. unfold spec_response, method_name. by rewrite Hname.
Qed.

End Dispatcher.

(** * Registration *)

Section Registration.

Implicit Types (w : World) (object : gpointer).

Lemma heap_only_mret {A} (a : A) : heap_only (mret a).
Proof. by intros w. Qed.

Lemma heap_only_gets {A} (f : World → A) : heap_only (gets f).
Proof. by intros w. Qed.

Lemma heap_only_set_objects f : heap_only (modify (set_objects f)).
Proof. by intros w. Qed.

Lemma heap_only_bind {A B} (m : M A) (f : A → M B) :
  heap_only m → (∀ a, heap_only (f a)) → heap_only (m ≫= f).
Proof.
  intros Hm Hf w. rewrite exec_bind.
  destruct (Hf (eval m w) (exec m w)) as (-> & -> & ->). apply Hm.
Qed.

Lemma heap_only_g_object_new type : heap_only (g_object_new type).
Proof.
  apply heap_only_bind; [apply heap_only_gets|intros heap].
  apply heap_only_bind; [apply heap_only_set_objects|intros _].
  apply heap_only_bind; [|intros _; apply heap_only_mret].
  destruct type; apply heap_only_mret.
Qed.

Lemma heap_only_g_object_ref object : heap_only (g_object_ref object).
Proof.
  apply heap_only_bind; [apply heap_only_set_objects|intros _].
  apply heap_only_mret.
Qed.

Lemma heap_only_g_object_unref object : heap_only (g_object_unref object).
Proof.
  apply heap_only_bind; [apply heap_only_gets|intros heap].
  destruct (heap !! object) as [[type [|[|n]]]|]; simpl;
    try apply heap_only_set_objects; try apply heap_only_mret;
    (apply heap_only_bind; [|intros _; apply heap_only_set_objects]);
    destruct type; apply heap_only_mret.
Qed.

Lemma heap_only_call_destroy_notify notify object :
  heap_only (call_destroy_notify notify object).
Proof.
  destruct notify as [[]|]; [apply heap_only_g_object_unref|apply heap_only_mret].
Qed.

Lemma heap_only_close_channel old : heap_only (close_channel old).
Proof.
  destruct old as [[codec [[[handler data] notify]|]]|]; simpl;
    [apply heap_only_call_destroy_notify|apply heap_only_mret..].
Qed.

Lemma channels_set_channels f w : channels (set_channels f w) = f (channels w).
Proof. done. Qed.

Lemma heap_only_channels {A} (m : M A) w :
  heap_only m → channels (exec m w) = channels w.
Proof. intros H. by destruct (H w) as (_ & ? & _). Qed.

Lemma eval_g_object_new type w :
  eval (g_object_new type) w = fresh (dom (objects w)).
Proof. unfold g_object_new. by run. Qed.

Lemma eval_g_object_ref object w : eval (g_object_ref object) w = object.
Proof. unfold g_object_ref. by run. Qed.

Lemma eval_fl_method_channel_new messenger name codec w :
  eval (fl_method_channel_new messenger name codec) w = (messenger, c_str name).
Proof. unfold fl_method_channel_new. by run. Qed.

Lemma channels_fl_method_channel_new messenger name codec w :
  channels (exec (fl_method_channel_new messenger name codec) w)
  = <[(messenger, c_str name) :=
        {| channel_codec := codec; method_call_handler := None |}]> (channels w).
Proof.
  unfold fl_method_channel_new. run. rewrite channels_set_channels.
  by rewrite (heap_only_channels _ _ (heap_only_close_channel _)).
Qed.

Lemma channels_fl_method_channel_set_method_call_handler
    (channel : positive * string) handler user_data destroy_notify w :
  channels (exec (fl_method_channel_set_method_call_handler
                    channel handler user_data destroy_notify) w)
  = match channels w !! channel with
    | Some ch =>
        <[channel := {| channel_codec := channel_codec ch;
                        method_call_handler :=
                          Some (handler, user_data, destroy_notify) |}]> (channels w)
    | None => channels w
    end.
Proof.
  unfold fl_method_channel_set_method_call_handler. run.
  destruct (channels w !! channel) as [ch|].
  - run. rewrite channels_set_channels.
    by rewrite (heap_only_channels _ _ (heap_only_close_channel _)).
  - apply (heap_only_channels (call_destroy_notify destroy_notify user_data)),
      heap_only_call_destroy_notify.
Qed.

Lemma objects_g_object_new type w :
  objects (exec (g_object_new type) w)
  = <[fresh (dom (objects w)) := {| g_type := type; ref_count := 1 |}]> (objects w).
Proof. unfold g_object_new. run. by destruct type. Qed.

Lemma objects_g_object_ref object w :
  objects (exec (g_object_ref object) w)
  = alter (λ o, {| g_type := g_type o; ref_count := S (ref_count o) |}) object
      (objects w).
Proof. unfold g_object_ref. by run. Qed.

Lemma objects_g_object_unref object w type n :
  objects w !! object = Some {| g_type := type; ref_count := S (S n) |} →
  objects (exec (g_object_unref object) w)
  = <[object := {| g_type := type; ref_count := S n |}]> (objects w).
Proof. intros H. unfold g_object_unref. run. by rewrite H. Qed.

Lemma objects_fl_method_channel_new messenger name codec w :
  channels w !! (messenger, c_str name) = None →
  objects (exec (fl_method_channel_new messenger name codec) w) = objects w.
Proof. intros H. unfold fl_method_channel_new. run. by rewrite H. Qed.

Lemma objects_fl_method_channel_set_method_call_handler
    (channel : positive * string) handler user_data destroy_notify w codec :
  channels w !! channel
  = Some {| channel_codec := codec; method_call_handler := None |} →
  objects (exec (fl_method_channel_set_method_call_handler
                   channel handler user_data destroy_notify) w)
  = objects w.
Proof.
  intros H. unfold fl_method_channel_set_method_call_handler. run.
  rewrite H. by run.
Qed.

(** The reference counts balance: when the name "log_hood" is free on the
    messenger, registration leaves one new object behind, the plugin
    instance, with the single reference its channel handler owns. *)
Lemma register_objects registrar w :
  channels w !! (fl_plugin_registrar_get_messenger registrar, "log_hood") = None →
  objects (exec (log_hood_plugin_register_with_registrar registrar) w)
  = <[fresh (dom (objects w)) :=
        {| g_type := LOG_HOOD_TYPE_PLUGIN; ref_count := 1 |}]> (objects w).
Proof.
  intros Hfree. unfold log_hood_plugin_register_with_registrar.
  rewrite !exec_bind.
  rewrite eval_g_object_ref, eval_g_object_new, eval_fl_method_channel_new.
  unfold LOG_HOOD_PLUGIN, FL_METHOD_CODEC, log_hood_plugin_get_type.
  change (c_str "log_hood") with "log_hood".
  set (p := fresh (dom (objects w))).
  set (w1 := exec (g_object_new LOG_HOOD_TYPE_PLUGIN) w).
  set (w2 := exec (fl_method_channel_new _ "log_hood" _) w1).
  set (w3 := exec (g_object_ref p) w2).
  set (w4 := exec (fl_method_channel_set_method_call_handler _ _ _ _) w3).
  assert (H1 : objects w1
               = <[p := {| g_type := LOG_HOOD_TYPE_PLUGIN; ref_count := 1 |}]> (objects w))
    by apply objects_g_object_new.
  assert (C1 : channels w1 = channels w)
    by apply heap_only_channels, heap_only_g_object_new.
  assert (H2 : objects w2 = objects w1).
  { apply objects_fl_method_channel_new. by rewrite C1. }
  assert (C2 : channels w2
               = <[(fl_plugin_registrar_get_messenger registrar, "log_hood") :=
                     {| channel_codec := fl_standard_method_codec_new;
                        method_call_handler := None |}]> (channels w1))
    by apply channels_fl_method_channel_new.
  assert (H3 : objects w3
               = <[p := {| g_type := LOG_HOOD_TYPE_PLUGIN; ref_count := 2 |}]> (objects w)).
  { unfold w3. rewrite objects_g_object_ref, H2, H1.
    by rewrite alter_insert_eq. }
  assert (C3 : channels w3 = channels w2)
    by apply heap_only_channels, heap_only_g_object_ref.
  assert (H4 : objects w4 = objects w3).
  { eapply objects_fl_method_channel_set_method_call_handler.
    rewrite C3, C2. apply lookup_insert_eq. }
  rewrite (objects_g_object_unref p w4 LOG_HOOD_TYPE_PLUGIN 0).
  - rewrite H4, H3. apply insert_insert_eq.
  - rewrite H4, H3. apply lookup_insert_eq.
Qed.

(** The channel table after registration: one entry written, under the
    name "log_hood" on the registrar's messenger. *)
Lemma register_channels registrar w :
  channels (exec (log_hood_plugin_register_with_registrar registrar) w)
  = <[(fl_plugin_registrar_get_messenger registrar, "log_hood") :=
        {| channel_codec := FlStandardMethodCodec;
           method_call_handler :=
             Some (Method_call_cb, fresh (dom (objects w)), Some G_object_unref) |}]>
      (channels w).
Proof.
  unfold log_hood_plugin_register_with_registrar.
  rewrite !exec_bind.
  rewrite (heap_only_channels _ _ (heap_only_g_object_unref _)).
  rewrite channels_fl_method_channel_set_method_call_handler.
  rewrite (heap_only_channels _ _ (heap_only_g_object_ref _)).
  rewrite channels_fl_method_channel_new, eval_fl_method_channel_new.
  rewrite (heap_only_channels _ _ (heap_only_g_object_new _)).
  rewrite eval_g_object_ref, eval_g_object_new.
  change (c_str "log_hood") with "log_hood".
  rewrite lookup_insert_eq. simpl. by rewrite insert_insert_eq.
Qed.

(** C9.  Registration attaches the handler to one channel: the entry
    "log_hood" of the registrar's messenger is written, with the standard
    method codec and [method_call_cb] as its handler, every other entry of
    the channel table is left as it was, and a method call arriving on that
    channel is handled by [log_hood_plugin_handle_method_call] on the
    plugin instance made at registration. *)
Theorem registration_attaches_handler
    (foreign_handler : positive → positive * string → FlMethodCall → gpointer → M unit)
    registrar w :
  ∃ plugin : gpointer,
    channels (exec (log_hood_plugin_register_with_registrar registrar) w)
      !! (fl_plugin_registrar_get_messenger registrar, "log_hood")
    = Some {| channel_codec := FlStandardMethodCodec;
              method_call_handler :=
                Some (Method_call_cb, plugin, Some G_object_unref) |}
    ∧ (∀ channel : positive * string,
         channel ≠ (fl_plugin_registrar_get_messenger registrar, "log_hood") →
         channels (exec (log_hood_plugin_register_with_registrar registrar) w)
           !! channel
         = channels w !! channel)
    ∧ (∀ method args response_handle,
         message_cb foreign_handler
           (fl_plugin_registrar_get_messenger registrar, "log_hood")
           method args response_handle
           (exec (log_hood_plugin_register_with_registrar registrar) w)
         = log_hood_plugin_handle_method_call plugin
             (fl_method_call_new method args
                (fl_plugin_registrar_get_messenger registrar, "log_hood")
                response_handle)
             (exec (log_hood_plugin_register_with_registrar registrar) w)).
Proof.
  exists (fresh (dom (objects w))). split; [|split].
  - by rewrite register_channels, lookup_insert_eq.
  - intros channel Hne. by rewrite register_channels, lookup_insert_ne.
  - intros method args response_handle. unfold message_cb.
    rewrite bind_run, eval_gets, exec_gets.
    by rewrite register_channels, lookup_insert_eq.
Qed.

End Registration.

(** * The statements at concrete calls *)

Section Witnesses.

Lemma get_platform_version_reply_witness :
  method_name version_call = "getPlatformVersion"
  ∧ responses (exec (log_hood_plugin_handle_method_call 5 version_call) running)
    = [(version_call,
        FlMethodSuccessResponse (FL_VALUE_TYPE_STRING "Linux #1 SMP PREEMPT_DYNAMIC"))].
Proof.
  split; [reflexivity|].
  apply (get_platform_version_reply 5 version_call running). reflexivity.
Defined.

Lemma other_method_not_implemented_witness :
  method_name (sample_call "getBatteryLevel" FL_VALUE_TYPE_NULL) ≠ "getPlatformVersion"
  ∧ responses
      (exec (log_hood_plugin_handle_method_call 5
               (sample_call "getBatteryLevel" FL_VALUE_TYPE_NULL)) running)
    = [(sample_call "getBatteryLevel" FL_VALUE_TYPE_NULL, FlMethodNotImplementedResponse)].
Proof.
  split; [discriminate|].
  apply (other_method_not_implemented 5
           (sample_call "getBatteryLevel" FL_VALUE_TYPE_NULL) running).
  discriminate.
Defined.

Lemma get_platform_version_nonempty_witness :
  method_name version_call = "getPlatformVersion"
  ∧ ∃ s : string,
      replies (log_hood_plugin_handle_method_call 5 version_call) failing
      = [(version_call, FlMethodSuccessResponse (FL_VALUE_TYPE_STRING s))]
      ∧ s ≠ EmptyString
      ∧ (6 ≤ String.length s)%nat.
Proof.
  split; [reflexivity|].
  apply (get_platform_version_nonempty 5 version_call failing). reflexivity.
Defined.

Lemma stateless_and_deterministic_witness :
  method_name version_call
  = method_name (sample_call "getPlatformVersion" (FL_VALUE_TYPE_INT 7))
  ∧ eval (uname utsname_zero) running = eval (uname utsname_zero) registered
  ∧ (replies (log_hood_plugin_handle_method_call 5 version_call)
       (exec (handle_all [(5%positive, sample_call "other" FL_VALUE_TYPE_NULL);
                          (5%positive, version_call)]) running)).*2
    = (replies (log_hood_plugin_handle_method_call 9
                  (sample_call "getPlatformVersion" (FL_VALUE_TYPE_INT 7)))
         (exec (handle_all []) registered)).*2.
Proof.
  split; [reflexivity|]. split; [reflexivity|].
  apply (stateless_and_deterministic
           [(5%positive, sample_call "other" FL_VALUE_TYPE_NULL);
            (5%positive, version_call)] []
           5 9 version_call
           (sample_call "getPlatformVersion" (FL_VALUE_TYPE_INT 7))
           running registered);
    reflexivity.
Defined.

Lemma method_name_match_is_exact_witness :
  replies (log_hood_plugin_handle_method_call 5
             (sample_call "GetPlatformVersion" FL_VALUE_TYPE_NULL)) running
  = [(sample_call "GetPlatformVersion" FL_VALUE_TYPE_NULL, FlMethodNotImplementedResponse)]
  ∧ replies (log_hood_plugin_handle_method_call 5
               (sample_call " getPlatformVersion" FL_VALUE_TYPE_NULL)) running
    = [(sample_call " getPlatformVersion" FL_VALUE_TYPE_NULL, FlMethodNotImplementedResponse)]
  ∧ replies (log_hood_plugin_handle_method_call 5
               (sample_call "getPlatformVersion " FL_VALUE_TYPE_NULL)) running
    = [(sample_call "getPlatformVersion " FL_VALUE_TYPE_NULL, FlMethodNotImplementedResponse)].
Proof.
  split; [|split].
  - apply (proj1 (proj2 (method_name_match_is_exact 5
             (sample_call "GetPlatformVersion" FL_VALUE_TYPE_NULL) running)));
      [reflexivity|discriminate].
  - apply (proj2 (proj2 (method_name_match_is_exact 5
             (sample_call " getPlatformVersion" FL_VALUE_TYPE_NULL) running))
             " " EmptyString); [reflexivity|left; discriminate].
  - apply (proj2 (proj2 (method_name_match_is_exact 5
             (sample_call "getPlatformVersion " FL_VALUE_TYPE_NULL) running))
             EmptyString " "); [reflexivity|right; discriminate].
Defined.

Lemma reply_independent_of_arguments_witness :
  fl_method_call_get_name version_call
  = fl_method_call_get_name
      (sample_call "getPlatformVersion"
         (FL_VALUE_TYPE_LIST [FL_VALUE_TYPE_STRING "x"; FL_VALUE_TYPE_BOOL true]))
  ∧ (replies (log_hood_plugin_handle_method_call 5 version_call) running).*2
    = (replies (log_hood_plugin_handle_method_call 5
                  (sample_call "getPlatformVersion"
                     (FL_VALUE_TYPE_LIST
                        [FL_VALUE_TYPE_STRING "x"; FL_VALUE_TYPE_BOOL true]))) running).*2.
Proof.
  split; [reflexivity|].
  apply (reply_independent_of_arguments 5 version_call
           (sample_call "getPlatformVersion"
              (FL_VALUE_TYPE_LIST [FL_VALUE_TYPE_STRING "x"; FL_VALUE_TYPE_BOOL true]))
           running).
  reflexivity.
Defined.

(** From registration to reply: the plugin is registered in a fresh world,
    a "getPlatformVersion" call arrives on "log_hood", and one reply leaves. *)
Example registered_plugin_answers :
  responses
    (exec (log_hood_plugin_register_with_registrar {| registrar_messenger := 7 |} ;;
           message_cb (λ _ _ _ _, mret tt) (7%positive, "log_hood")
             "getPlatformVersion" FL_VALUE_TYPE_NULL 1)
          running)
  = [(fl_method_call_new "getPlatformVersion" FL_VALUE_TYPE_NULL
        (7%positive, "log_hood") 1,
      FlMethodSuccessResponse (FL_VALUE_TYPE_STRING "Linux #1 SMP PREEMPT_DYNAMIC"))].
Proof. vm_compute. reflexivity. Qed.

(** A call on a channel nobody registered reaches no handler. *)
Example unregistered_channel_silent :
  responses
    (exec (message_cb (λ _ _ _ _, mret tt) (7%positive, "log_hood")
             "getPlatformVersion" FL_VALUE_TYPE_NULL 1)
          running)
  = [].
Proof. vm_compute. reflexivity. Qed.

(** With [uname] failing the buffer stays zero-filled and the reply is the
    bare prefix. *)
Example failing_uname_reply :
  replies (log_hood_plugin_handle_method_call 5 version_call) failing
  = [(version_call, FlMethodSuccessResponse (FL_VALUE_TYPE_STRING "Linux "))].
Proof. vm_compute. reflexivity. Qed.

(** A NUL byte ends the name: what follows it is not part of the C string
    the handler compares. *)
Example name_ends_at_NUL :
  method_name (sample_call (String "a" (String NUL "b")) FL_VALUE_TYPE_NULL) = "a"
  ∧ strcmp (String "a" (String NUL "b")) "a" = 0.
Proof. split; reflexivity. Qed.

End Witnesses.

(** * Further properties of the version query and of the handler *)

Section VersionReply.

Implicit Types (w : World).

Lemma os_version_reported w : os_version w = reported_version (kernel w).
Proof. unfold os_version. rewrite eval_uname. by destruct (kernel w). Qed.

Lemma eval_get_platform_version w :
  eval get_platform_version w
  = FlMethodSuccessResponse
      (FL_VALUE_TYPE_STRING ("Linux " +:+ reported_version (kernel w))).
Proof.
  unfold eval. by rewrite get_platform_version_run, os_version_reported.
Qed.

Lemma length_c_str (p : string) : (String.length (c_str p) ≤ String.length p)%nat.
Proof.
  induction p as [|c rest IH]; [done|]. simpl.
  destruct (decide (c = NUL)); simpl; lia.
Qed.

(** X1.  The version reply is decided by the [version] field alone, and
    decides it: two worlds get the same reply from [get_platform_version]
    exactly when their kernels report the same version string, a failed
    [uname] counting as an empty one.  The other five fields of the answer
    and the return value of [uname] never show. *)
Theorem version_reply_iff_same_version w1 w2 :
  eval get_platform_version w1 = eval get_platform_version w2
  ↔ reported_version (kernel w1) = reported_version (kernel w2).
Proof.
  rewrite !eval_get_platform_version. split.
  - intros [= H]. exact H.
  - by intros ->.
Qed.

(** X2.  For a kernel answer whose [version] field fits its [char[65]]
    buffer, the replied string is a proper C string (it holds no NUL, so
    nothing is cut off when it is copied into the value), and it has the
    6 characters of "Linux " followed by those of the version: between 6
    and 70 characters in all. *)
Theorem version_reply_length w :
  (∀ u, kernel w = Some u → (String.length (version u) < _UTSNAME_LENGTH)%nat) →
  ∃ s : string,
    eval get_platform_version w = FlMethodSuccessResponse (FL_VALUE_TYPE_STRING s)
    ∧ c_str s = s
    ∧ String.length s = (6 + String.length (reported_version (kernel w)))%nat
    ∧ (6 ≤ String.length s ≤ 70)%nat.
Proof.
  intros Hfit. exists ("Linux " +:+ reported_version (kernel w)).
  split; [apply eval_get_platform_version|].
  assert (Hnul : c_str (reported_version (kernel w)) = reported_version (kernel w)).
  { destruct (kernel w); [apply c_str_idemp|done]. }
  split.
  { rewrite <- Hnul at 1. rewrite c_str_Linux. by rewrite Hnul. }
  rewrite length_append.
  change (String.length "Linux ") with 6%nat. split; [done|].
  destruct (kernel w) as [u|] eqn:Hk; simpl; [|lia].
  specialize (Hfit u eq_refl). unfold _UTSNAME_LENGTH in Hfit.
  pose proof (length_c_str (version u)). lia.
Qed.

(** Running a sequence of calls: the log grows by the replies each call
    gets when handled alone from the starting world, and nothing else
    changes. *)
Lemma handle_all_run (calls : list (gpointer * FlMethodCall)) w :
  responses (exec (handle_all calls) w)
  = responses w
    ++ concat (map (λ c, replies (log_hood_plugin_handle_method_call c.1 c.2) w) calls)
  ∧ kernel (exec (handle_all calls) w) = kernel w
  ∧ objects (exec (handle_all calls) w) = objects w
  ∧ channels (exec (handle_all calls) w) = channels w.
Proof.
  revert w. induction calls as [|[self call] rest IH]; intros w.
  - simpl. rewrite exec_mret, !app_nil_r. done.
  - simpl handle_all. rewrite exec_bind.
    set (w1 := exec (log_hood_plugin_handle_method_call self call) w).
    destruct (IH w1) as (Hr & Hk & Ho & Hch).
    destruct (handle_method_call_frame self call w) as (Hk1 & Ho1 & Hch1).
    fold w1 in Hk1, Ho1, Hch1.
    assert (Hw1 : responses w1 = responses w ++ [(call, spec_response call w)])
      by apply handle_method_call_responses.
    assert (Hsame : ∀ c : gpointer * FlMethodCall,
               replies (log_hood_plugin_handle_method_call c.1 c.2) w1
               = replies (log_hood_plugin_handle_method_call c.1 c.2) w).
    { intros c. rewrite !handle_method_call_replies. unfold spec_response.
      by rewrite (os_version_kernel _ _ Hk1). }
    split; [|split; [|split]].
    + rewrite Hr, Hw1. simpl. rewrite handle_method_call_replies.
      rewrite <- app_assoc. simpl. do 2 f_equal.
      f_equal. apply map_ext. intros c. apply Hsame.
    + by rewrite Hk.
    + by rewrite Ho.
    + by rewrite Hch.
Qed.

Lemma replied_calls (calls : list (gpointer * FlMethodCall)) w :
  (concat (map (λ c, replies (log_hood_plugin_handle_method_call c.1 c.2) w) calls)).*1
  = calls.*2.
Proof.
  induction calls as [|[self call] rest IH]; [done|].
  rewrite map_cons, concat_cons, !fmap_app, IH.
  by rewrite handle_method_call_replies.
Qed.

(** X3.  Handling a sequence of calls sends one reply per call, in the
    order of the calls, and the reply to each call is the one it would get
    if it were handled alone: earlier calls leave no trace that a later
    one could see.  The heap and the channel table stay as they were. *)
Theorem handle_all_one_reply_each (calls : list (gpointer * FlMethodCall)) w :
  responses (exec (handle_all calls) w)
  = responses w
    ++ concat (map (λ c, replies (log_hood_plugin_handle_method_call c.1 c.2) w) calls)
  ∧ (responses (exec (handle_all calls) w)).*1 = (responses w).*1 ++ calls.*2
  ∧ length (responses (exec (handle_all calls) w))
    = (length (responses w) + length calls)%nat
  ∧ objects (exec (handle_all calls) w) = objects w
  ∧ channels (exec (handle_all calls) w) = channels w.
Proof.
  destruct (handle_all_run calls w) as (Hr & _ & Ho & Hch).
  assert (Hcalls : (responses (exec (handle_all calls) w)).*1
                   = (responses w).*1 ++ calls.*2).
  { by rewrite Hr, fmap_app, replied_calls. }
  repeat split; try done.
  rewrite <- (length_fmap fst), Hcalls, length_app, !length_fmap. done.
Qed.

End VersionReply.

(** * Further properties of registration *)

Section LifeCycle.

Implicit Types (w : World) (object plugin : gpointer).

Lemma quiet_heap_only {A} (m : M A) : heap_only m → quiet m.
Proof. intros H w. by destruct (H w) as (? & _ & ?). Qed.

Lemma quiet_set_channels f : quiet (modify (set_channels f)).
Proof. by intros w. Qed.

Lemma quiet_bind {A B} (m : M A) (f : A → M B) :
  quiet m → (∀ a, quiet (f a)) → quiet (m ≫= f).
Proof.
  intros Hm Hf w. rewrite exec_bind.
  destruct (Hf (eval m w) (exec m w)) as (-> & ->). apply Hm.
Qed.

Lemma quiet_fl_method_channel_new messenger name codec :
  quiet (fl_method_channel_new messenger name codec).
Proof.
  apply quiet_bind; [apply quiet_heap_only, heap_only_gets|intros table].
  apply quiet_bind; [apply quiet_heap_only, heap_only_close_channel|intros _].
  apply quiet_bind; [apply quiet_set_channels|intros _].
  apply quiet_heap_only, heap_only_mret.
Qed.

Lemma quiet_fl_method_channel_set_method_call_handler
    (channel : positive * string) handler user_data destroy_notify :
  quiet (fl_method_channel_set_method_call_handler
           channel handler user_data destroy_notify).
Proof.
  apply quiet_bind; [apply quiet_heap_only, heap_only_gets|intros table].
  destruct (table !! channel) as [ch|].
  - apply quiet_bind; [apply quiet_heap_only, heap_only_close_channel|intros _].
    apply quiet_set_channels.
  - apply quiet_heap_only, heap_only_call_destroy_notify.
Qed.

Lemma quiet_register registrar :
  quiet (log_hood_plugin_register_with_registrar registrar).
Proof.
  apply quiet_bind; [apply quiet_heap_only, heap_only_g_object_new|intros object].
  apply quiet_bind; [apply quiet_fl_method_channel_new|intros channel].
  apply quiet_bind; [apply quiet_heap_only, heap_only_g_object_ref|intros data].
  apply quiet_bind; [apply quiet_fl_method_channel_set_method_call_handler|intros _].
  apply quiet_heap_only, heap_only_g_object_unref.
Qed.

Lemma fresh_object_unused w : objects w !! fresh (dom (objects w)) = None.
Proof. apply not_elem_of_dom, is_fresh. Qed.

Lemma register_channels_entry registrar w :
  channels (exec (log_hood_plugin_register_with_registrar registrar) w)
  = <[log_hood_channel registrar := plugin_entry (fresh (dom (objects w)))]>
      (channels w).
Proof. apply register_channels. Qed.

Lemma objects_g_object_unref_last object w type :
  objects w !! object = Some {| g_type := type; ref_count := 1 |} →
  objects (exec (g_object_unref object) w) = delete object (objects w).
Proof.
  intros H. unfold g_object_unref. run. rewrite H. simpl. run.
  by destruct type.
Qed.

Lemma objects_close_channel_plugin plugin w :
  objects w !! plugin = Some (plugin_instance 1) →
  objects (exec (close_channel (Some (plugin_entry plugin))) w)
  = delete plugin (objects w).
Proof. intros H. by apply objects_g_object_unref_last in H. Qed.

(** What registration leaves on the heap, once the heap after the channel
    was made is known: taking the reference for the handler and returning
    the function's own cancel out. *)
Lemma register_objects_from_channel registrar w :
  objects
    (exec (fl_method_channel_new (fl_plugin_registrar_get_messenger registrar)
             "log_hood" FlStandardMethodCodec)
          (exec (g_object_new LOG_HOOD_TYPE_PLUGIN) w))
    !! fresh (dom (objects w)) = Some (plugin_instance 1) →
  objects (exec (log_hood_plugin_register_with_registrar registrar) w)
  = objects
      (exec (fl_method_channel_new (fl_plugin_registrar_get_messenger registrar)
               "log_hood" FlStandardMethodCodec)
            (exec (g_object_new LOG_HOOD_TYPE_PLUGIN) w)).
Proof.
  unfold log_hood_plugin_register_with_registrar.
  rewrite !exec_bind.
  rewrite eval_g_object_ref, eval_g_object_new, eval_fl_method_channel_new.
  unfold LOG_HOOD_PLUGIN, FL_METHOD_CODEC, log_hood_plugin_get_type,
    fl_standard_method_codec_new.
  change (c_str "log_hood") with "log_hood".
  set (p := fresh (dom (objects w))).
  set (w1 := exec (g_object_new LOG_HOOD_TYPE_PLUGIN) w).
  set (w2 := exec (fl_method_channel_new _ "log_hood" _) w1).
  set (w3 := exec (g_object_ref p) w2).
  set (w4 := exec (fl_method_channel_set_method_call_handler _ _ _ _) w3).
  intros Hp.
  assert (C2 : channels w2 !! (fl_plugin_registrar_get_messenger registrar, "log_hood")
               = Some {| channel_codec := FlStandardMethodCodec;
                         method_call_handler := None |}).
  { unfold w2. rewrite channels_fl_method_channel_new. apply lookup_insert_eq. }
  assert (H3 : objects w3
               = alter (λ o, {| g_type := g_type o; ref_count := S (ref_count o) |})
                   p (objects w2))
    by apply objects_g_object_ref.
  assert (C3 : channels w3 = channels w2)
    by apply heap_only_channels, heap_only_g_object_ref.
  assert (H4 : objects w4 = objects w3).
  { eapply objects_fl_method_channel_set_method_call_handler.
    rewrite C3. apply C2. }
  rewrite (objects_g_object_unref p w4 LOG_HOOD_TYPE_PLUGIN 0).
  - rewrite H4, H3, insert_alter_eq. by apply insert_id.
  - rewrite H4, H3, lookup_alter_eq, Hp. done.
Qed.

Lemma objects_fl_method_channel_new_closing messenger name codec w ch :
  channels w !! (messenger, c_str name) = Some ch →
  objects (exec (fl_method_channel_new messenger name codec) w)
  = objects (exec (close_channel (Some ch)) w).
Proof. intros H. unfold fl_method_channel_new. run. by rewrite H. Qed.

(** Registering over a channel that a plugin instance with one reference
    serves: the old instance is freed and the new one takes its place. *)
Lemma register_objects_replacing registrar w old :
  channels w !! log_hood_channel registrar = Some (plugin_entry old) →
  objects w !! old = Some (plugin_instance 1) →
  objects (exec (log_hood_plugin_register_with_registrar registrar) w)
  = <[fresh (dom (objects w)) := plugin_instance 1]> (delete old (objects w)).
Proof.
  intros Hch Hold.
  assert (Hne : old ≠ fresh (dom (objects w))).
  { intros ->. by rewrite fresh_object_unused in Hold. }
  assert (Hw2 : objects
            (exec (fl_method_channel_new (fl_plugin_registrar_get_messenger registrar)
                     "log_hood" FlStandardMethodCodec)
                  (exec (g_object_new LOG_HOOD_TYPE_PLUGIN) w))
          = <[fresh (dom (objects w)) := plugin_instance 1]> (delete old (objects w))).
  { rewrite (objects_fl_method_channel_new_closing _ _ _ _ (plugin_entry old)).
    - rewrite objects_close_channel_plugin.
      + rewrite objects_g_object_new. by apply delete_insert_ne.
      + rewrite objects_g_object_new. by rewrite lookup_insert_ne.
    - rewrite (heap_only_channels _ _ (heap_only_g_object_new _)). apply Hch. }
  rewrite register_objects_from_channel; [done|].
  rewrite Hw2. apply lookup_insert_eq.
Qed.

Lemma message_cb_plugin foreign_handler (channel : positive * string)
    plugin method args response_handle w :
  channels w !! channel = Some (plugin_entry plugin) →
  message_cb foreign_handler channel method args response_handle w
  = log_hood_plugin_handle_method_call plugin
      (fl_method_call_new method args channel response_handle) w.
Proof.
  intros H. unfold message_cb. rewrite bind_run, eval_gets, exec_gets.
  by rewrite H.
Qed.

End LifeCycle.

Section LifeCycleProperties.

Implicit Types (w : World) (registrar : FlPluginRegistrar).

Lemma world_eq w1 w2 :
  kernel w1 = kernel w2 → objects w1 = objects w2 →
  channels w1 = channels w2 → responses w1 = responses w2 → w1 = w2.
Proof. destruct w1, w2. simpl. by intros -> -> -> ->. Qed.

Lemma deliver_all_plugin foreign_handler (channel : positive * string) plugin
    (incoming : list (string * FlValue * positive)) w :
  channels w !! channel = Some (plugin_entry plugin) →
  exec (deliver_all foreign_handler channel incoming) w
  = exec (handle_all (map (λ msg, (plugin, incoming_call channel msg)) incoming)) w.
Proof.
  revert w. induction incoming as [|[[method args] handle] rest IH]; intros w Hch.
  - done.
  - simpl deliver_all. simpl map. simpl handle_all. rewrite !exec_bind.
    unfold incoming_call at 1 2. simpl.
    assert (Hsame : exec (message_cb foreign_handler channel method args handle) w
                    = exec (log_hood_plugin_handle_method_call plugin
                              (fl_method_call_new method args channel handle)) w).
    { unfold exec. by rewrite (message_cb_plugin _ _ plugin). }
    rewrite Hsame. apply IH.
    destruct (handle_method_call_frame plugin
                (fl_method_call_new method args channel handle) w) as (_ & _ & ->).
    done.
Qed.

Lemma length_replies_of {X} (call_of : X → FlMethodCall) plugin (l : list X) w :
  length (concat (map (λ x, replies (log_hood_plugin_handle_method_call plugin
                                       (call_of x)) w) l))
  = length l.
Proof.
  induction l as [|x l IH]; [done|].
  rewrite map_cons, concat_cons, length_app, IH.
  by rewrite handle_method_call_replies.
Qed.


(** X5.  The reference handed to the channel is returned when the channel
    is closed: registering on a free name and then closing the channel
    gives back the very world registration started from, with the plugin
    instance freed and the channel entry gone. *)
Theorem register_then_close_restores registrar w :
  channels w !! log_hood_channel registrar = None →
  exec (log_hood_plugin_register_with_registrar registrar ;;
        close_channel_named (log_hood_channel registrar)) w
  = w.
Proof.
  intros Hfree. rewrite exec_bind.
  set (w1 := exec (log_hood_plugin_register_with_registrar registrar) w).
  assert (Ho : objects w1 = <[fresh (dom (objects w)) := plugin_instance 1]> (objects w))
    by by apply register_objects.
  assert (Hc : channels w1
               = <[log_hood_channel registrar := plugin_entry (fresh (dom (objects w)))]>
                   (channels w))
    by apply register_channels_entry.
  destruct (quiet_register registrar w) as (Hk & Hr). fold w1 in Hk, Hr.
  unfold close_channel_named. run. rewrite Hc, lookup_insert_eq.
  set (w2 := exec (close_channel _) w1).
  assert (Ho2 : objects w2 = objects w).
  { unfold w2. rewrite objects_close_channel_plugin.
    - rewrite Ho. apply delete_insert_id, fresh_object_unused.
    - rewrite Ho. apply lookup_insert_eq. }
  destruct (heap_only_close_channel
              (Some (plugin_entry (fresh (dom (objects w))))) w1) as (Hk2 & Hc2 & Hr2).
  fold w2 in Hk2, Hc2, Hr2.
  apply world_eq; simpl.
  - by rewrite Hk2.
  - done.
  - rewrite Hc2, Hc. by apply delete_insert_id.
  - by rewrite Hr2.
Qed.

(** X6.  Registering twice does not leak.  On a free name, a second
    registration frees the instance the first one made (through the destroy
    notification of the replaced handler) and installs a new one: one
    plugin instance with one reference is all that is left, and the channel
    is served by it. *)
Theorem registering_twice_keeps_one_instance registrar w :
  channels w !! log_hood_channel registrar = None →
  ∃ first second : gpointer,
    first ≠ second
    ∧ objects w !! first = None ∧ objects w !! second = None
    ∧ objects (exec (log_hood_plugin_register_with_registrar registrar ;;
                     log_hood_plugin_register_with_registrar registrar) w)
      = <[second := plugin_instance 1]> (objects w)
    ∧ channels (exec (log_hood_plugin_register_with_registrar registrar ;;
                      log_hood_plugin_register_with_registrar registrar) w)
      = <[log_hood_channel registrar := plugin_entry second]> (channels w).
Proof.
  intros Hfree. rewrite exec_bind.
  set (w1 := exec (log_hood_plugin_register_with_registrar registrar) w).
  set (first := fresh (dom (objects w))).
  assert (Hfirst : objects w !! first = None) by apply fresh_object_unused.
  assert (Ho : objects w1 = <[first := plugin_instance 1]> (objects w))
    by by apply register_objects.
  assert (Hc : channels w1
               = <[log_hood_channel registrar := plugin_entry first]> (channels w))
    by apply register_channels_entry.
  assert (Hsecond : objects w1 !! fresh (dom (objects w1)) = None)
    by apply fresh_object_unused.
  assert (Hne : first ≠ fresh (dom (objects w1))).
  { intros Heq. rewrite <- Heq, Ho, lookup_insert_eq in Hsecond. done. }
  exists first, (fresh (dom (objects w1))).
  split; [done|]. split; [done|]. split.
  { rewrite <- (lookup_insert_ne (objects w) first _ (plugin_instance 1) Hne).
    by rewrite <- Ho. }
  split.
  - rewrite (register_objects_replacing registrar w1 first).
    + rewrite Ho. by rewrite delete_insert_id.
    + rewrite Hc. apply lookup_insert_eq.
    + rewrite Ho. apply lookup_insert_eq.
  - rewrite register_channels_entry, Hc. apply insert_insert_eq.
Qed.

(** X7.  Once registered, the plugin answers every call that arrives on
    "log_hood", however many: each gets the one reply the handler gives it
    (registration itself having sent none), in the order of arrival, and
    afterwards the channel is still served by the same plugin instance. *)
Theorem registered_plugin_answers_every_call
    (foreign_handler : positive → positive * string → FlMethodCall → gpointer → M unit)
    registrar (incoming : list (string * FlValue * positive)) w :
  ∃ plugin : gpointer,
    responses
      (exec (log_hood_plugin_register_with_registrar registrar ;;
             deliver_all foreign_handler (log_hood_channel registrar) incoming) w)
    = responses w
      ++ concat (map (λ msg, replies (log_hood_plugin_handle_method_call plugin
                                        (incoming_call (log_hood_channel registrar) msg)) w)
                   incoming)
    ∧ length (responses
        (exec (log_hood_plugin_register_with_registrar registrar ;;
               deliver_all foreign_handler (log_hood_channel registrar) incoming) w))
      = (length (responses w) + length incoming)%nat
    ∧ channels
        (exec (log_hood_plugin_register_with_registrar registrar ;;
               deliver_all foreign_handler (log_hood_channel registrar) incoming) w)
        !! log_hood_channel registrar
      = Some (plugin_entry plugin).
Proof.
  exists (fresh (dom (objects w))). rewrite exec_bind.
  set (plugin := fresh (dom (objects w))).
  set (w1 := exec (log_hood_plugin_register_with_registrar registrar) w).
  assert (Hc : channels w1 !! log_hood_channel registrar = Some (plugin_entry plugin)).
  { unfold w1. rewrite register_channels_entry. apply lookup_insert_eq. }
  destruct (quiet_register registrar w) as (Hk & Hr). fold w1 in Hk, Hr.
  rewrite (deliver_all_plugin _ _ plugin _ _ Hc).
  destruct (handle_all_run
              (map (λ msg, (plugin, incoming_call (log_hood_channel registrar) msg))
                 incoming) w1) as (Hrun & _ & _ & Hch).
  assert (Hlog : responses
            (exec (handle_all
                     (map (λ msg, (plugin, incoming_call (log_hood_channel registrar) msg))
                        incoming)) w1)
          = responses w
            ++ concat (map (λ msg, replies (log_hood_plugin_handle_method_call plugin
                                   (incoming_call (log_hood_channel registrar) msg)) w)
                         incoming)).
  { rewrite Hrun, Hr, map_map. simpl. do 2 f_equal. apply map_ext. intros msg.
    rewrite !handle_method_call_replies. unfold spec_response.
    by rewrite (os_version_kernel _ _ Hk). }
  split; [done|]. split.
  - rewrite Hlog, length_app. f_equal. apply length_replies_of.
  - by rewrite Hch.
Qed.

End LifeCycleProperties.

(** * The further statements at a concrete world *)

Section LifeCycleWitnesses.

Lemma version_reply_length_witness :
  (∀ u, kernel running = Some u → (String.length (version u) < _UTSNAME_LENGTH)%nat)
  ∧ ∃ s : string,
      eval get_platform_version running
      = FlMethodSuccessResponse (FL_VALUE_TYPE_STRING s)
      ∧ c_str s = s
      ∧ String.length s = (6 + String.length (reported_version (kernel running)))%nat
      ∧ (6 ≤ String.length s ≤ 70)%nat.
Proof.
  assert (Hfit : ∀ u, kernel running = Some u →
                      (String.length (version u) < _UTSNAME_LENGTH)%nat).
  { intros u Hu. injection Hu as <-. vm_compute. lia. }
  split; [exact Hfit|]. apply (version_reply_length running Hfit).
Defined.


Lemma register_then_close_restores_witness :
  channels failing !! log_hood_channel {| registrar_messenger := 7 |} = None
  ∧ exec (log_hood_plugin_register_with_registrar {| registrar_messenger := 7 |} ;;
          close_channel_named (log_hood_channel {| registrar_messenger := 7 |})) failing
    = failing.
Proof.
  split; [reflexivity|].
  apply (register_then_close_restores {| registrar_messenger := 7 |} failing).
  reflexivity.
Defined.

Lemma registering_twice_keeps_one_instance_witness :
  channels running !! log_hood_channel {| registrar_messenger := 7 |} = None
  ∧ ∃ first second : gpointer,
      first ≠ second
      ∧ objects running !! first = None ∧ objects running !! second = None
      ∧ objects (exec (log_hood_plugin_register_with_registrar
                         {| registrar_messenger := 7 |} ;;
                       log_hood_plugin_register_with_registrar
                         {| registrar_messenger := 7 |}) running)
        = <[second := plugin_instance 1]> (objects running)
      ∧ channels (exec (log_hood_plugin_register_with_registrar
                          {| registrar_messenger := 7 |} ;;
                        log_hood_plugin_register_with_registrar
                          {| registrar_messenger := 7 |}) running)
        = <[log_hood_channel {| registrar_messenger := 7 |} := plugin_entry second]>
            (channels running).
Proof.
  split; [reflexivity|].
  apply (registering_twice_keeps_one_instance {| registrar_messenger := 7 |} running).
  reflexivity.
Defined.

(** Two registrations on the empty heap: the first instance sat at address
    1 and is gone, the second sits at address 2. *)
Example second_registration_heap :
  map_to_list
    (objects (exec (log_hood_plugin_register_with_registrar
                      {| registrar_messenger := 7 |} ;;
                    log_hood_plugin_register_with_registrar
                      {| registrar_messenger := 7 |}) running))
  = [(2%positive, plugin_instance 1)].
Proof. vm_compute. reflexivity. Qed.

(** Two kernels that differ in every field but [version] get one reply. *)
Example other_fields_do_not_show :
  eval get_platform_version
    (sample_world (Some {| sysname := "GNU"; nodename := "a"; release := "5.10";
                           version := "#1 SMP PREEMPT_DYNAMIC"; machine := "arm64";
                           domainname := "b" |}))
  = eval get_platform_version running.
Proof. vm_compute. reflexivity. Qed.

End LifeCycleWitnesses.
